(** * CybermodelViewer: a shallow embedding of [cybertruck/js/cybermodel.js]

    The script builds one controller object, [CybermodelViewer], around a
    three.js scene.  Its handlers are embedded below as state transformers
    over a record of the fields the handlers read and write.

    - JavaScript numbers are IEEE 754 binary64 values: they are Rocq's
      primitive floats, and [+], [-], [*], [/] below are the rounded
      operations the script executes.
    - A handler may throw (dereferencing [this.model] while it is still
      [undefined]); what it wrote before the throw stays written, so a
      completion carries the state in both cases.
    - What three.js and the host compute (the bounding box of an object, the
      tangent) is taken as a parameter.
    - The elements the constructor looks up, the listeners it registers and
      [destroy] (which the script never calls) are embedded as a page around
      the controller. *)

From Stdlib Require Import PrimFloat FloatClass FloatOps FloatAxioms SpecFloat.
From Stdlib Require Import Bool List String ZArith Arith Lia.
Import ListNotations.

Set Warnings "-inexact-float".
Local Open Scope float_scope.

(** ** Numbers and [Math] *)

(** [Math.PI], the binary64 value nearest to pi. *)
Definition Math_PI : float := 3.141592653589793.

Definition is_pos_zero (f : float) : bool :=
  match classify f with PZero => true | _ => false end.

Definition is_neg_zero (f : float) : bool :=
  match classify f with NZero => true | _ => false end.

(** [Math.max(...values)] as ECMAScript defines it: start from -Infinity;
    a NaN argument makes the result NaN; +0 is larger than -0. *)
Fixpoint Math_max_from (highest : float) (values : list float) : float :=
  match values with
  | [] => highest
  | number :: rest =>
      if is_nan number then nan
      else if is_pos_zero number && is_neg_zero highest
           then Math_max_from number rest
      else if highest <? number then Math_max_from number rest
      else Math_max_from highest rest
  end.

Definition Math_max (values : list float) : float :=
  Math_max_from neg_infinity values.

Definition Math_abs (f : float) : float := abs f.

(** ** Objects *)

(** [THREE.Vector3]. *)
Module Vector3.
Record t : Set := mk { x : float; y : float; z : float }.
End Vector3.

(** [THREE.Euler], the [rotation] of a scene-graph node (radians). *)
Module Euler.
Record t : Set := mk { x : float; y : float; z : float }.
Definition set_x (v : float) (r : t) : t := mk v (y r) (z r).
Definition set_y (v : float) (r : t) : t := mk (x r) v (z r).
End Euler.

(** The object literal [{ x, y }] stored in [this.previousPosition]. *)
Module Position.
Record t : Set := mk { x : float; y : float }.
End Position.

Record Material : Set := mkMaterial {
  metalness : float;
  roughness : float
}.

(** One object visited by [Object3D.traverse], with the properties
    [optimizeModel] reads and writes.  [material = None] is a missing
    (falsy) material. *)
Record Node : Set := mkNode {
  isMesh : bool;
  material : option Material;
  castShadow : bool;
  receiveShadow : bool
}.

(** [gltf.scene]: the root's rotation and the objects [traverse] visits,
    in visiting order. *)
Record Object3D : Set := mkObject3D {
  rotation : Euler.t;
  nodes : list Node
}.

(** [THREE.PerspectiveCamera].  [lookedAt] is the argument of the last
    [lookAt] call ([None] before the first one): with [position] and the
    fixed up vector it determines the orientation. *)
Record PerspectiveCamera : Set := mkCamera {
  fov : float;
  aspect : float;
  near : float;
  far : float;
  position : Vector3.t;
  lookedAt : option Vector3.t
}.

(** [THREE.WebGLRenderer]: the size given to [setSize] and the number of
    [render] calls. *)
Record WebGLRenderer : Set := mkRenderer {
  width : float;
  height : float;
  frames : nat
}.

(** The [.loading-indicator] element. *)
Record LoadingIndicator : Set := mkIndicator {
  display : string;
  textContent : string
}.

(** Children of [this.scene].  [SceneModel] is the reference to the object
    also held in [this.model]: both names denote one object, so a rotation
    written through [this.model] is the rotation of the scene's child. *)
Inductive SceneChild : Set :=
| AmbientLight (color intensity : float)
| DirectionalLight (color intensity : float) (at_position : Vector3.t)
| SceneModel.

(** The controller and the two host facilities its handlers write to:
    [console] holds the [console.error] calls (label, error), and
    [frameRequests] counts the [requestAnimationFrame] calls. *)
Record Viewer : Type := mkViewer {
  loadingIndicator : LoadingIndicator;
  isAutoRotating : bool;
  isDragging : bool;
  previousPosition : Position.t;
  scene : list SceneChild;
  camera : PerspectiveCamera;
  renderer : WebGLRenderer;
  model : option Object3D;
  console : list (string * string);
  frameRequests : nat
}.

Definition set_loadingIndicator (v : LoadingIndicator) (s : Viewer) : Viewer :=
  mkViewer v (isAutoRotating s) (isDragging s) (previousPosition s) (scene s)
           (camera s) (renderer s) (model s) (console s) (frameRequests s).

Definition set_isAutoRotating (v : bool) (s : Viewer) : Viewer :=
  mkViewer (loadingIndicator s) v (isDragging s) (previousPosition s) (scene s)
           (camera s) (renderer s) (model s) (console s) (frameRequests s).

Definition set_isDragging (v : bool) (s : Viewer) : Viewer :=
  mkViewer (loadingIndicator s) (isAutoRotating s) v (previousPosition s)
           (scene s) (camera s) (renderer s) (model s) (console s)
           (frameRequests s).

Definition set_previousPosition (v : Position.t) (s : Viewer) : Viewer :=
  mkViewer (loadingIndicator s) (isAutoRotating s) (isDragging s) v (scene s)
           (camera s) (renderer s) (model s) (console s) (frameRequests s).

Definition set_scene (v : list SceneChild) (s : Viewer) : Viewer :=
  mkViewer (loadingIndicator s) (isAutoRotating s) (isDragging s)
           (previousPosition s) v (camera s) (renderer s) (model s)
           (console s) (frameRequests s).

Definition set_camera (v : PerspectiveCamera) (s : Viewer) : Viewer :=
  mkViewer (loadingIndicator s) (isAutoRotating s) (isDragging s)
           (previousPosition s) (scene s) v (renderer s) (model s)
           (console s) (frameRequests s).

Definition set_renderer (v : WebGLRenderer) (s : Viewer) : Viewer :=
  mkViewer (loadingIndicator s) (isAutoRotating s) (isDragging s)
           (previousPosition s) (scene s) (camera s) v (model s)
           (console s) (frameRequests s).

Definition set_model (v : option Object3D) (s : Viewer) : Viewer :=
  mkViewer (loadingIndicator s) (isAutoRotating s) (isDragging s)
           (previousPosition s) (scene s) (camera s) (renderer s) v
           (console s) (frameRequests s).

Definition set_console (v : list (string * string)) (s : Viewer) : Viewer :=
  mkViewer (loadingIndicator s) (isAutoRotating s) (isDragging s)
           (previousPosition s) (scene s) (camera s) (renderer s) (model s)
           v (frameRequests s).

Definition set_frameRequests (v : nat) (s : Viewer) : Viewer :=
  mkViewer (loadingIndicator s) (isAutoRotating s) (isDragging s)
           (previousPosition s) (scene s) (camera s) (renderer s) (model s)
           (console s) v.

(** ** Handlers as state transformers that may throw *)

(** The only exception the script can raise itself: reading a property of
    [undefined]. *)
Inductive Error : Set :=
| TypeError (reading : string).

Inductive Completion (A : Type) : Type :=
| Normal (a : A) (s : Viewer)
| Throw (e : Error) (s : Viewer).
Arguments Normal {A} a s.
Arguments Throw {A} e s.

Definition M (A : Type) : Type := Viewer -> Completion A.

Definition ret {A} (a : A) : M A := fun s => Normal a s.

Definition bind {A B} (c : M A) (k : A -> M B) : M B :=
  fun s => match c s with
           | Normal a s' => k a s'
           | Throw e s' => Throw e s'
           end.

Definition get : M Viewer := fun s => Normal s s.
Definition modify (f : Viewer -> Viewer) : M unit := fun s => Normal tt (f s).
Definition throw {A} (e : Error) : M A := fun s => Throw e s.

Notation "x <- c ;; k" := (bind c (fun x => k))
  (at level 61, c at next level, right associativity).
Notation "c ;;; k" := (bind c (fun _ => k))
  (at level 61, right associativity).

(** The state a handler leaves behind, however it completed. *)
Definition state_of {A} (c : Completion A) : Viewer :=
  match c with Normal _ s => s | Throw _ s => s end.

Definition threw {A} (c : Completion A) : bool :=
  match c with Normal _ _ => false | Throw _ _ => true end.

(** Reading a property of [this.model]. *)
Definition this_model (reading : string) : M Object3D :=
  fun s => match model s with
           | Some m => Normal m s
           | None => Throw (TypeError reading) s
           end.

(** Writing [this.model.rotation]. *)
Definition set_rotation (r : Euler.t) (s : Viewer) : Viewer :=
  match model s with
  | Some m => set_model (Some (mkObject3D r (nodes m))) s
  | None => s
  end.

(** ** Events *)

(** An entry of [e.touches]. *)
Module Touch.
Record t : Set := mk { clientX : float; clientY : float }.
End Touch.

(** Everything the host can deliver to the controller: the two callbacks
    given to [GLTFLoader.load], the click listeners of the two buttons, the
    mouse and touch listeners, the resize listener (with the container's
    bounding rectangle at that moment) and the animation frame. *)
Inductive Event : Set :=
| GLTFLoaded (gltfScene : Object3D)
| GLTFError (error : string)
| ResetViewClick
| ToggleRotationClick
| MouseDown (clientX clientY : float)
| MouseMove (clientX clientY : float)
| MouseUp
| TouchStart (touches : list Touch.t)
| TouchMove (touches : list Touch.t)
| TouchEnd
| WindowResize (rectWidth rectHeight : float)
| AnimationFrame.

(** [e.touches[0]], whose properties the touch handlers read. *)
Definition first_touch (touches : list Touch.t) : M Touch.t :=
  match touches with
  | t :: _ => ret t
  | [] => throw (TypeError "clientX")
  end.

(** ** Methods that do not depend on three.js computations *)

Definition setSize (w h : float) (r : WebGLRenderer) : WebGLRenderer :=
  mkRenderer w h (frames r).

Definition render (r : WebGLRenderer) : WebGLRenderer :=
  mkRenderer (width r) (height r) (S (frames r)).

Definition set_aspect (a : float) (c : PerspectiveCamera) : PerspectiveCamera :=
  mkCamera (fov c) a (near c) (far c) (position c) (lookedAt c).

Definition set_position (p : Vector3.t) (c : PerspectiveCamera)
  : PerspectiveCamera :=
  mkCamera (fov c) (aspect c) (near c) (far c) p (lookedAt c).

Definition lookAt (target : Vector3.t) (c : PerspectiveCamera)
  : PerspectiveCamera :=
  mkCamera (fov c) (aspect c) (near c) (far c) (position c) (Some target).

Definition set_display (d : string) (i : LoadingIndicator) : LoadingIndicator :=
  mkIndicator d (textContent i).

Definition set_textContent (t : string) (i : LoadingIndicator)
  : LoadingIndicator :=
  mkIndicator (display i) t.

(** [updateRendererSize], given the container's bounding rectangle. *)
Definition updateRendererSize (rectWidth rectHeight : float) : M unit :=
  modify (fun s => set_renderer (setSize rectWidth rectHeight (renderer s)) s) ;;;
  modify (fun s => set_camera (set_aspect (rectWidth / rectHeight) (camera s)) s).

(** The callback of [traverse] in [optimizeModel]. *)
Definition optimizeNode (child : Node) : Node :=
  match isMesh child, material child with
  | true, Some _ => mkNode (isMesh child) (Some (mkMaterial 0.9 0.3)) true true
  | _, _ => child
  end.

Definition optimizeModel : M unit :=
  m <- this_model "traverse" ;;
  modify (set_model (Some (mkObject3D (rotation m) (map optimizeNode (nodes m))))).

Definition onMouseDown (clientX clientY : float) : M unit :=
  modify (set_isDragging true) ;;;
  modify (set_previousPosition (Position.mk clientX clientY)).

Definition handleRotation (clientX clientY : float) : M unit :=
  s <- get ;;
  let deltaX := clientX - Position.x (previousPosition s) in
  let deltaY := clientY - Position.y (previousPosition s) in
  m <- this_model "rotation" ;;
  modify (set_rotation
            (Euler.set_y (Euler.y (rotation m) + deltaX * 0.005) (rotation m))) ;;;
  m <- this_model "rotation" ;;
  modify (set_rotation
            (Euler.set_x (Euler.x (rotation m) + deltaY * 0.005) (rotation m))) ;;;
  modify (set_previousPosition (Position.mk clientX clientY)).

Definition onMouseMove (clientX clientY : float) : M unit :=
  s <- get ;;
  if negb (isDragging s) then ret tt
  else handleRotation clientX clientY.

Definition onMouseUp : M unit :=
  modify (set_isDragging false).

Definition onTouchStart (touches : list Touch.t) : M unit :=
  modify (set_isDragging true) ;;;
  t <- first_touch touches ;;
  modify (set_previousPosition (Position.mk (Touch.clientX t) (Touch.clientY t))).

Definition onTouchMove (touches : list Touch.t) : M unit :=
  s <- get ;;
  if negb (isDragging s) then ret tt
  else t <- first_touch touches ;;
       handleRotation (Touch.clientX t) (Touch.clientY t).

Definition onTouchEnd : M unit :=
  modify (set_isDragging false).

(** The click listener of [#toggle-rotation]. *)
Definition toggleRotationClick : M unit :=
  modify (fun s => set_isAutoRotating (negb (isAutoRotating s)) s).

(** The error callback given to [GLTFLoader.load]. *)
Definition onError (error : string) : M unit :=
  modify (fun s => set_console (console s ++ [("Error loading model:"%string, error)]) s) ;;;
  modify (fun s => set_loadingIndicator
                     (set_textContent "Error loading model" (loadingIndicator s)) s).

Definition animate : M unit :=
  modify (fun s => set_frameRequests (S (frameRequests s)) s) ;;;
  s <- get ;;
  (if isAutoRotating s
   then m <- this_model "rotation" ;;
        modify (set_rotation
                  (Euler.set_y (Euler.y (rotation m) + 0.005) (rotation m)))
   else ret tt) ;;;
  modify (fun s => set_renderer (render (renderer s)) s).

(** ** Methods that frame the camera *)

Section Framing.

  (** [Math.tan]: ECMAScript leaves its value implementation-approximated. *)
Variable Math_tan : float -> float.

  (** [new THREE.Box3().setFromObject(o)] followed by [getCenter] and by
      [getSize]: computed by three.js from the object's geometry and its
      current transform. *)
Variable Box3_center : Object3D -> Vector3.t.
Variable Box3_size : Object3D -> Vector3.t.

  (** The position [fitModelToContainer] gives the camera. *)
Definition framing_position (size : Vector3.t) (cameraFov : float)
    : Vector3.t :=
    let maxDim := Math_max [Vector3.x size; Vector3.y size; Vector3.z size] in
    let fovRad := cameraFov * (Math_PI / 180) in
    let cameraZ := Math_abs (maxDim / (2 * Math_tan (fovRad / 2))) in
    Vector3.mk 0 (Vector3.y size * 0.3) (cameraZ * 1.8).

Definition fitModelToContainer : M unit :=
    m <- this_model "updateWorldMatrix" ;;
    let center := Box3_center m in
    let size := Box3_size m in
    modify (fun s => set_camera
                       (set_position (framing_position size (fov (camera s)))
                                     (camera s)) s) ;;;
    modify (fun s => set_camera (lookAt center (camera s)) s).

  (** The completion callback given to [GLTFLoader.load]. *)
Definition onLoad (gltfScene : Object3D) : M unit :=
    modify (set_model (Some gltfScene)) ;;;
    optimizeModel ;;;
    modify (fun s => set_scene (scene s ++ [SceneModel]) s) ;;;
    fitModelToContainer ;;;
    modify (fun s => set_loadingIndicator
                       (set_display "none" (loadingIndicator s)) s).

  (** The click listener of [#reset-view]. *)
Definition resetViewClick : M unit :=
    fitModelToContainer ;;;
    _ <- this_model "rotation" ;;
    modify (set_rotation (Euler.mk 0 0 0)).

Definition onWindowResize (rectWidth rectHeight : float) : M unit :=
    updateRendererSize rectWidth rectHeight ;;;
    fitModelToContainer.

  (** The listener each event reaches ([setupControls],
      [setupEventListeners], [loadModel], [requestAnimationFrame]). *)
Definition handle (e : Event) : M unit :=
    match e with
    | GLTFLoaded gltfScene => onLoad gltfScene
    | GLTFError error => onError error
    | ResetViewClick => resetViewClick
    | ToggleRotationClick => toggleRotationClick
    | MouseDown clientX clientY => onMouseDown clientX clientY
    | MouseMove clientX clientY => onMouseMove clientX clientY
    | MouseUp => onMouseUp
    | TouchStart touches => onTouchStart touches
    | TouchMove touches => onTouchMove touches
    | TouchEnd => onTouchEnd
    | WindowResize rectWidth rectHeight => onWindowResize rectWidth rectHeight
    | AnimationFrame => animate
    end.

  (** The host goes on dispatching events after a listener threw. *)
Definition dispatch (s : Viewer) (e : Event) : Viewer :=
    state_of (handle e s).

Definition run (events : list Event) (s : Viewer) : Viewer :=
    fold_left dispatch events s.

End Framing.

(** [new CybermodelViewer()] in a page whose container has the given
    bounding rectangle and whose loading indicator has the given text:
    [initScene] (camera, renderer, [updateRendererSize], [addLights]) and
    [loadModel] up to the asynchronous request. *)
Definition new_CybermodelViewer (rectWidth rectHeight : float)
  (indicatorText : string) : Viewer :=
  {| loadingIndicator := mkIndicator "block" indicatorText;
     isAutoRotating := false;
     isDragging := false;
     previousPosition := Position.mk 0 0;
     scene := [AmbientLight 0xffffff 0.5;
               DirectionalLight 0xffffff 0.8 (Vector3.mk 5 10 5)];
     camera := mkCamera 45 (rectWidth / rectHeight) 0.1 1000
                        (Vector3.mk 0 0 0) None;
     renderer := mkRenderer rectWidth rectHeight 0;
     model := None;
     console := [];
     frameRequests := 0 |}.

(** ** Vocabulary of the properties *)

(** The pointer position a move event reports ([None] for other events and
    for a touch event without touches). *)
Definition move_target (e : Event) : option Position.t :=
  match e with
  | MouseMove clientX clientY => Some (Position.mk clientX clientY)
  | TouchMove (t :: _) => Some (Position.mk (Touch.clientX t) (Touch.clientY t))
  | _ => None
  end.

(** The pointer position a press event reports. *)
Definition press_target (e : Event) : option Position.t :=
  match e with
  | MouseDown clientX clientY => Some (Position.mk clientX clientY)
  | TouchStart (t :: _) => Some (Position.mk (Touch.clientX t) (Touch.clientY t))
  | _ => None
  end.

Definition is_move (e : Event) : bool :=
  match e with
  | MouseMove _ _ | TouchMove _ => true
  | _ => false
  end.

(** The state [handleRotation clientX clientY] leaves when [this.model] is
    the object [m]. *)
Definition rotated (clientX clientY : float) (m : Object3D) (s : Viewer)
  : Viewer :=
  let deltaX := clientX - Position.x (previousPosition s) in
  let deltaY := clientY - Position.y (previousPosition s) in
  set_previousPosition (Position.mk clientX clientY)
    (set_model
       (Some (mkObject3D
                (Euler.mk (Euler.x (rotation m) + deltaY * 0.005)
                          (Euler.y (rotation m) + deltaX * 0.005)
                          (Euler.z (rotation m)))
                (nodes m)))
       s).

(** The state [fitModelToContainer] leaves when [this.model] is the object
    [m]. *)
Definition framed (Math_tan : float -> float)
  (Box3_center Box3_size : Object3D -> Vector3.t) (m : Object3D) (s : Viewer)
  : Viewer :=
  set_camera
    (lookAt (Box3_center m)
       (set_position
          (framing_position Math_tan (Box3_size m) (fov (camera s)))
          (camera s)))
    s.

Definition is_load_error (e : Event) : bool :=
  match e with
  | GLTFError _ => true
  | _ => false
  end.

Definition is_load_completion (e : Event) : bool :=
  match e with
  | GLTFLoaded _ => true
  | _ => false
  end.

(** The events whose handler reaches a read of a property of [this.model]
    in state [s]: reset and resize always ([fitModelToContainer]), a move
    while dragging ([handleRotation]), a frame while auto-rotating. *)
Definition dereferences_model (e : Event) (s : Viewer) : bool :=
  match e with
  | ResetViewClick | WindowResize _ _ => true
  | MouseMove _ _ | TouchMove (_ :: _) => isDragging s
  | AnimationFrame => isAutoRotating s
  | _ => false
  end.

(** The pointer, touch, toggle-button and frame events. *)
Definition is_control_event (e : Event) : bool :=
  match e with
  | MouseDown _ _ | MouseMove _ _ | MouseUp
  | TouchStart _ | TouchMove _ | TouchEnd
  | ToggleRotationClick | AnimationFrame => true
  | _ => false
  end.

(** [kept_besides_controls s s']: from [s] to [s'] nothing of the viewer
    changed except, possibly, the drag flag, the previous pointer position,
    the auto-rotate flag and the model's x and y rotation angles.  (The
    number of frames drawn and of frames requested, and the console, belong
    to the host.) *)
Definition kept_besides_controls (s s' : Viewer) : Prop :=
  loadingIndicator s' = loadingIndicator s /\
  scene s' = scene s /\
  camera s' = camera s /\
  width (renderer s') = width (renderer s) /\
  height (renderer s') = height (renderer s) /\
  option_map nodes (model s') = option_map nodes (model s) /\
  option_map (fun m => Euler.z (rotation m)) (model s')
  = option_map (fun m => Euler.z (rotation m)) (model s).

(** What the reset click keeps: everything but the model's rotation and the
    camera's position and orientation. *)
Definition kept_by_reset (s s' : Viewer) : Prop :=
  loadingIndicator s' = loadingIndicator s /\
  scene s' = scene s /\
  renderer s' = renderer s /\
  fov (camera s') = fov (camera s) /\
  aspect (camera s') = aspect (camera s) /\
  near (camera s') = near (camera s) /\
  far (camera s') = far (camera s) /\
  option_map nodes (model s') = option_map nodes (model s) /\
  isDragging s' = isDragging s /\
  previousPosition s' = previousPosition s /\
  isAutoRotating s' = isAutoRotating s.

(** What a resize keeps: everything but the renderer's size and the
    camera's aspect, position and orientation. *)
Definition kept_by_resize (s s' : Viewer) : Prop :=
  loadingIndicator s' = loadingIndicator s /\
  scene s' = scene s /\
  frames (renderer s') = frames (renderer s) /\
  fov (camera s') = fov (camera s) /\
  near (camera s') = near (camera s) /\
  far (camera s') = far (camera s) /\
  model s' = model s /\
  isDragging s' = isDragging s /\
  previousPosition s' = previousPosition s /\
  isAutoRotating s' = isAutoRotating s.

(** The increments a drag adds to an angle: one per move, from the
    coordinate stored before it to the coordinate it reports. *)
Fixpoint increments (previous : float) (coordinates : list float)
  : list float :=
  match coordinates with
  | [] => []
  | current :: rest =>
      (current - previous) * 0.005 :: increments current rest
  end.

(** Adding the increments to an angle one after the other. *)
Definition accumulate (angle : float) (incs : list float) : float :=
  fold_left PrimFloat.add incs angle.

(** The y and x angles of the loaded model. *)
Definition rotation_y (s : Viewer) : option float :=
  option_map (fun m => Euler.y (rotation m)) (model s).

Definition rotation_x (s : Viewer) : option float :=
  option_map (fun m => Euler.x (rotation m)) (model s).

(** ** A sample page *)

(** A stand-in for the host's [Math.tan] (the first terms of its series),
    used only to evaluate the handlers on the sample page. *)
Definition sample_tan (x : float) : float :=
  x + x * x * x / 3 + 2 * x * x * x * x * x / 15.

(** A stand-in for three.js's bounding box: a box of size 2 x 1.8 x 5.6
    centred at (0, 0.9, 0), whatever the object. *)
Definition sample_center (o : Object3D) : Vector3.t := Vector3.mk 0 0.9 0.
Definition sample_size (o : Object3D) : Vector3.t := Vector3.mk 2 1.8 5.6.

Definition sample_model : Object3D :=
  mkObject3D (Euler.mk 0 0 0)
    [mkNode false None false false;
     mkNode true (Some (mkMaterial 1 1)) false false].

(** The page just after the script ran, in an 800 x 400 container. *)
Definition sample_page : Viewer :=
  dispatch sample_tan sample_center sample_size
    (new_CybermodelViewer 800 400 "Loading 3D model...") AnimationFrame.

(** The same page once the model has been loaded. *)
Definition sample_loaded : Viewer :=
  dispatch sample_tan sample_center sample_size sample_page
    (GLTFLoaded sample_model).

(** The loaded model as [optimizeModel] leaves it. *)
Definition sample_optimized : Object3D :=
  mkObject3D (Euler.mk 0 0 0) (map optimizeNode (nodes sample_model)).

(** The loaded page after a press at (10, 20). *)
Definition sample_dragging : Viewer :=
  dispatch sample_tan sample_center sample_size sample_loaded
    (MouseDown 10 20).

(** A bounding box that follows the model's rotation: the sample box,
    longer by the size of the y angle. *)
Definition sample_turning_size (o : Object3D) : Vector3.t :=
  Vector3.mk 2 1.8 (5.6 + Math_abs (Euler.y (rotation o))).

(** The sample page with that bounding box, after the load, a press at
    (10, 20) and a move to (14, 23): the model is rotated and the drag is
    still on. *)
Definition sample_rotated : Viewer :=
  run sample_tan sample_center sample_turning_size
    [GLTFLoaded sample_model; MouseDown 10 20; MouseMove 14 23] sample_page.

(** The model of that page. *)
Definition sample_rotated_model : Object3D :=
  mkObject3D (Euler.mk (0 + (23 - 20) * 0.005) (0 + (14 - 10) * 0.005) 0)
             (nodes sample_optimized).

(** ** The page: the elements the constructor looks up, the listeners it
    registers and the canvas it inserts *)

(** The objects the script calls [addEventListener] on. *)
Inductive Target : Set :=
| Container
| Document
| Window
| ResetViewButton
| ToggleRotationButton.

Inductive MouseType : Set := mousedown | mousemove | mouseup | click.
Inductive TouchType : Set := touchstart | touchmove | touchend.

(** The [type] argument of [addEventListener]. *)
Inductive EventType : Set :=
| OfMouse (ty : MouseType)
| OfTouch (ty : TouchType)
| resize.

(** The functions the script registers: the seven bound methods stored by
    the constructor and the two arrow functions of [setupControls]. *)
Inductive Listener : Set :=
| boundOnMouseDown
| boundOnMouseMove
| boundOnMouseUp
| boundOnTouchStart
| boundOnTouchMove
| boundOnTouchEnd
| boundOnWindowResize
| resetViewListener
| toggleRotationListener.

Record Registration : Set := mkRegistration {
  target : Target;
  eventType : EventType;
  listener : Listener
}.



Definition Registration_eq_dec (a b : Registration) : {a = b} + {a <> b}.
Proof. repeat decide equality. Defined.

(** [target.addEventListener(type, listener)]: a registration already
    present is not added again. *)
Definition addEventListener (r : Registration) (l : list Registration)
  : list Registration :=
  if in_dec Registration_eq_dec r l then l else l ++ [r].

(** [target.removeEventListener(type, listener)]: nothing happens when the
    registration is absent. *)
Definition removeEventListener (r : Registration) (l : list Registration)
  : list Registration :=
  filter (fun r' => if Registration_eq_dec r r' then false else true) l.



(** The page around the controller: the registered listeners, whether the
    renderer's canvas is a child of the container, and whether
    [renderer.dispose] has been called. *)
Record Page : Type := mkPage {
  viewer : Viewer;
  listeners : list Registration;
  canvasInContainer : bool;
  rendererDisposed : bool
}.


Definition set_listeners (l : list Registration) (p : Page) : Page :=
  mkPage (viewer p) l (canvasInContainer p) (rendererDisposed p).

(** [setupControls]: one click listener on each button. *)
Definition setupControls_reset (l : list Registration) : list Registration :=
  addEventListener
    (mkRegistration ResetViewButton (OfMouse click) resetViewListener) l.

Definition setupControls_toggle (l : list Registration) : list Registration :=
  addEventListener
    (mkRegistration ToggleRotationButton (OfMouse click)
                    toggleRotationListener) l.

Definition setupControls (l : list Registration) : list Registration :=
  setupControls_toggle (setupControls_reset l).

Definition setupEventListeners (l : list Registration) : list Registration :=
  fold_left (fun acc r => addEventListener r acc)
    [mkRegistration Container (OfMouse mousedown) boundOnMouseDown;
     mkRegistration Document (OfMouse mousemove) boundOnMouseMove;
     mkRegistration Document (OfMouse mouseup) boundOnMouseUp;
     mkRegistration Container (OfTouch touchstart) boundOnTouchStart;
     mkRegistration Document (OfTouch touchmove) boundOnTouchMove;
     mkRegistration Document (OfTouch touchend) boundOnTouchEnd;
     mkRegistration Window resize boundOnWindowResize]
    l.

(** The document the script runs in: [#cybermodel-container] (if present)
    with its bounding rectangle and the text of its [.loading-indicator]
    (if present), and whether the two buttons exist. *)
Record ContainerElement : Set := mkContainer {
  rectWidth : float;
  rectHeight : float;
  indicator : option string
}.

Record Dom : Set := mkDom {
  container : option ContainerElement;
  hasResetView : bool;
  hasToggleRotation : bool
}.

(** How [new CybermodelViewer()] ends.  When it throws (a property of [null]
    is read), what it had done by then: whether [initScene] had inserted the
    canvas, whether [loadModel] had requested the asset, and the listeners
    registered. *)
Inductive Construction : Type :=
| Constructed (p : Page)
| ConstructionThrew (reading : string) (canvasInserted loadRequested : bool)
    (registered : list Registration).

(** The constructor, in the order of its statements: the two lookups,
    [initScene], [loadModel], [setupControls], [setupEventListeners]. *)
Definition construct (dom : Dom) : Construction :=
  match container dom with
  | None => ConstructionThrew "querySelector" false false []
  | Some c =>
      match indicator c with
      | None => ConstructionThrew "style" true false []
      | Some text =>
          if negb (hasResetView dom)
          then ConstructionThrew "addEventListener" true true []
          else if negb (hasToggleRotation dom)
          then ConstructionThrew "addEventListener" true true
                 (setupControls_reset [])
          else Constructed
                 (mkPage (new_CybermodelViewer (rectWidth c) (rectHeight c) text)
                         (setupEventListeners (setupControls []))
                         true false)
      end
  end.

(** Errors of the page's own operations: [removeChild] of a node that is
    not a child throws a [NotFoundError]. *)
Inductive PageCompletion : Type :=
| Done (p : Page)
| NotFoundError (p : Page).

Definition destroy (p : Page) : PageCompletion :=
  let p1 :=
    set_listeners
      (removeEventListener
         (mkRegistration Window resize boundOnWindowResize) (listeners p)) p in
  let p2 := mkPage (viewer p1) (listeners p1) (canvasInContainer p1) true in
  if canvasInContainer p2
  then Done (mkPage (viewer p2) (listeners p2) false (rendererDisposed p2))
  else NotFoundError p2.

Definition page_of (c : PageCompletion) : Page :=
  match c with Done p => p | NotFoundError p => p end.

Section Wiring.

Variable Math_tan : float -> float.
Variable Box3_center : Object3D -> Vector3.t.
Variable Box3_size : Object3D -> Vector3.t.




End Wiring.


(** A document with everything the script looks up, and its page. *)
Definition sample_dom : Dom :=
  mkDom (Some (mkContainer 800 400 (Some "Loading 3D model..."%string)))
        true true.

Definition sample_constructed : Page :=
  mkPage (new_CybermodelViewer 800 400 "Loading 3D model...")
         (setupEventListeners (setupControls []))
         true false.

(** ** Vocabulary of the further properties *)

Definition is_frame (e : Event) : bool :=
  match e with
  | AnimationFrame => true
  | _ => false
  end.

Definition is_release (e : Event) : bool :=
  match e with
  | MouseUp | TouchEnd => true
  | _ => false
  end.

(** Whether [this.model] is defined. *)
Definition loaded (s : Viewer) : bool :=
  match model s with Some _ => true | None => false end.

(** The two lights [addLights] puts in the scene. *)
Definition the_lights : list SceneChild :=
  [AmbientLight 0xffffff 0.5;
   DirectionalLight 0xffffff 0.8 (Vector3.mk 5 10 5)].

(** What [optimizeModel] makes of [gltf.scene]. *)
Definition optimized (g : Object3D) : Object3D :=
  mkObject3D (rotation g) (map optimizeNode (nodes g)).




(** ** Properties *)

Section Properties.

Variable Math_tan : float -> float.
Variable Box3_center : Object3D -> Vector3.t.
Variable Box3_size : Object3D -> Vector3.t.

Local Abbreviation handle := (handle Math_tan Box3_center Box3_size).
Local Abbreviation dispatch := (dispatch Math_tan Box3_center Box3_size).
Local Abbreviation run := (run Math_tan Box3_center Box3_size).
Local Abbreviation fitModelToContainer :=
  (fitModelToContainer Math_tan Box3_center Box3_size).

(** *** Binary64 multiplication commutes *)

Lemma float_mul_comm (a b : float) : a * b = b * a.
Proof.
  apply Prim2SF_inj.
  rewrite !mul_spec.
  unfold SF64mul, SFmul.
  destruct (Prim2SF a) as [sa | sa | | sa ma ea];
    destruct (Prim2SF b) as [sb | sb | | sb mb eb];
    try reflexivity; rewrite (xorb_comm sa sb); try reflexivity.
  now rewrite Pos.mul_comm, Z.add_comm.
Qed.

(** *** Evaluating the handlers *)

Lemma this_model_undefined (reading : string) (s : Viewer) :
  model s = None -> this_model reading s = Throw (TypeError reading) s.
Proof. intros H. unfold this_model. now rewrite H. Qed.

Lemma handleRotation_loaded (clientX clientY : float) (s : Viewer)
  (m : Object3D) :
  model s = Some m ->
  handleRotation clientX clientY s = Normal tt (rotated clientX clientY m s).
Proof.
  intros Hm. destruct s; simpl in Hm; subst.
  reflexivity.
Qed.

Lemma handleRotation_undefined (clientX clientY : float) (s : Viewer) :
  model s = None ->
  handleRotation clientX clientY s = Throw (TypeError "rotation") s.
Proof.
  intros Hm. unfold handleRotation, bind, get.
  now rewrite (this_model_undefined _ _ Hm).
Qed.

Lemma move_while_dragging (e : Event) (s : Viewer) (m : Object3D)
  (p : Position.t) :
  move_target e = Some p ->
  isDragging s = true ->
  model s = Some m ->
  handle e s = Normal tt (rotated (Position.x p) (Position.y p) m s).
Proof.
  intros He Hd Hm.
  destruct e as [| | | | | cx cy | | | [| t ts] | | |]; try discriminate;
    injection He as <-; simpl;
    [ unfold onMouseMove | unfold onTouchMove ];
    unfold bind, get; rewrite Hd; simpl;
    now apply handleRotation_loaded.
Qed.

(** C2. A move event (mouse or touch) to (cx, cy), handled while the drag
    flag is set and the model is loaded, with the stored previous position
    (px, py): the handler completes normally, the model's y angle becomes
    y + 0.005 * (cx - px), its x angle becomes x + 0.005 * (cy - py) (sums
    and products of JavaScript numbers), its z angle is untouched, and the
    stored previous position becomes (cx, cy). *)
Theorem drag_move_rotates (e : Event) (s : Viewer) (m : Object3D)
  (cx cy : float) :
  move_target e = Some (Position.mk cx cy) ->
  isDragging s = true ->
  model s = Some m ->
  let px := Position.x (previousPosition s) in
  let py := Position.y (previousPosition s) in
  exists s' m',
    handle e s = Normal tt s' /\
    model s' = Some m' /\
    Euler.y (rotation m') = Euler.y (rotation m) + 0.005 * (cx - px) /\
    Euler.x (rotation m') = Euler.x (rotation m) + 0.005 * (cy - py) /\
    Euler.z (rotation m') = Euler.z (rotation m) /\
    previousPosition s' = Position.mk cx cy.
Proof.
  intros He Hd Hm px py.
  eexists; eexists; split.
  - exact (move_while_dragging e s m _ He Hd Hm).
  - simpl. subst px py.
    rewrite (float_mul_comm 0.005 (cx - _)), (float_mul_comm 0.005 (cy - _)).
    repeat split; reflexivity.
Qed.

(** C7. A mouse-move or touch-move event handled while the drag flag is
    false completes normally and leaves the whole state as it was. *)
Theorem move_without_drag_is_noop (e : Event) (s : Viewer) :
  is_move e = true ->
  isDragging s = false ->
  handle e s = Normal tt s.
Proof.
  intros He Hd.
  destruct e; try discriminate; simpl;
    [ unfold onMouseMove | unfold onTouchMove ];
    unfold bind, get; now rewrite Hd.
Qed.


Lemma fit_loaded (s : Viewer) (m : Object3D) :
  model s = Some m ->
  fitModelToContainer s
  = Normal tt (framed Math_tan Box3_center Box3_size m s).
Proof.
  intros Hm. destruct s; simpl in Hm; subst.
  reflexivity.
Qed.

Lemma fit_undefined (s : Viewer) :
  model s = None ->
  fitModelToContainer s = Throw (TypeError "updateWorldMatrix") s.
Proof.
  intros Hm. destruct s; simpl in Hm; subst.
  reflexivity.
Qed.

(** C3. With the model loaded, its bounding box of size (sx, sy, sz) and
    centre c: [fitModelToContainer] completes normally, puts the camera at
    (0, 0.3 * sy, 1.8 * |maxDim / (2 * tan (fovRad / 2))|) with
    maxDim = Math.max(sx, sy, sz) and fovRad = fov * (Math.PI / 180), and
    makes it look at c; the resize handler runs that same method after
    [updateRendererSize] and leaves the camera at the same place, looking at
    c. *)
Theorem camera_framing (s : Viewer) (m : Object3D) (sx sy sz : float)
  (c : Vector3.t) (rectWidth rectHeight : float) :
  model s = Some m ->
  Box3_size m = Vector3.mk sx sy sz ->
  Box3_center m = c ->
  let maxDim := Math_max [sx; sy; sz] in
  let fovRad := fov (camera s) * (Math_PI / 180) in
  let eye :=
    Vector3.mk 0 (0.3 * sy)
               (1.8 * Math_abs (maxDim / (2 * Math_tan (fovRad / 2)))) in
  (exists s', fitModelToContainer s = Normal tt s' /\
              position (camera s') = eye /\
              lookedAt (camera s') = Some c) /\
  handle (WindowResize rectWidth rectHeight) s
  = fitModelToContainer
      (state_of (updateRendererSize rectWidth rectHeight s)) /\
  (exists s', handle (WindowResize rectWidth rectHeight) s = Normal tt s' /\
              position (camera s') = eye /\
              lookedAt (camera s') = Some c).
Proof.
  intros Hm Hsize Hc maxDim fovRad eye.
  assert (Heye : framing_position Math_tan (Box3_size m) (fov (camera s)) = eye).
  { rewrite Hsize. unfold framing_position, eye, maxDim, fovRad. simpl.
    now rewrite (float_mul_comm 0.3 sy), (float_mul_comm 1.8 _). }
  split; [| split].
  - eexists; split; [exact (fit_loaded s m Hm) |].
    simpl. now rewrite Heye, Hc.
  - reflexivity.
  - simpl. unfold onWindowResize, bind. simpl.
    eexists; split.
    + apply fit_loaded. exact Hm.
    + simpl. now rewrite Heye, Hc.
Qed.

(** C4. A click on the reset-view button with the model loaded, its
    bounding box (as the click arrives, before the angles are zeroed) of
    size (sx, sy, sz) and centre c: the listener completes normally;
    afterwards all three rotation angles of the model are 0 and its objects
    are the same, the camera is at
    (0, 0.3 * sy, 1.8 * |maxDim / (2 * tan (fovRad / 2))|) with
    maxDim = Math.max(sx, sy, sz) and fovRad = fov * (Math.PI / 180) and
    looks at c, and the drag flag, the previous pointer position and the
    auto-rotate flag are what they were. *)
Theorem reset_view_click (s : Viewer) (m : Object3D) (sx sy sz : float)
  (c : Vector3.t) :
  model s = Some m ->
  Box3_size m = Vector3.mk sx sy sz ->
  Box3_center m = c ->
  let maxDim := Math_max [sx; sy; sz] in
  let fovRad := fov (camera s) * (Math_PI / 180) in
  exists s' m',
    handle ResetViewClick s = Normal tt s' /\
    model s' = Some m' /\
    rotation m' = Euler.mk 0 0 0 /\
    nodes m' = nodes m /\
    position (camera s')
    = Vector3.mk 0 (0.3 * sy)
        (1.8 * Math_abs (maxDim / (2 * Math_tan (fovRad / 2)))) /\
    lookedAt (camera s') = Some c /\
    isDragging s' = isDragging s /\
    previousPosition s' = previousPosition s /\
    isAutoRotating s' = isAutoRotating s.
Proof.
  intros Hm Hsize Hc maxDim fovRad.
  destruct s as [li ar dr pp sc cam rn mo co fr]; simpl in Hm; subst mo.
  do 2 eexists. split; [reflexivity |].
  simpl. rewrite Hsize, Hc.
  unfold framing_position, maxDim, fovRad. simpl.
  rewrite (float_mul_comm 0.3 sy), (float_mul_comm 1.8 _).
  repeat split; reflexivity.
Qed.


(** *** Asset-load failure *)

(** C8. The error callback of the loader completes normally and leaves the
    scene, the camera, the renderer, the model reference (hence the rotation
    angles), the drag flag, the previous pointer position, the auto-rotate
    flag and the indicator's [display] as they were: of the viewer it
    changes the indicator's text content only. *)
Theorem load_error_keeps_viewer (error : string) (s : Viewer) :
  exists s',
    handle (GLTFError error) s = Normal tt s' /\
    scene s' = scene s /\
    camera s' = camera s /\
    renderer s' = renderer s /\
    model s' = model s /\
    isDragging s' = isDragging s /\
    previousPosition s' = previousPosition s /\
    isAutoRotating s' = isAutoRotating s /\
    frameRequests s' = frameRequests s /\
    display (loadingIndicator s') = display (loadingIndicator s).
Proof.
  eexists. split; [reflexivity |].
  simpl. repeat split; reflexivity.
Qed.

Lemma only_load_error_reports (e : Event) (s : Viewer) :
  is_load_error e = false ->
  console (dispatch s e) = console s /\
  textContent (loadingIndicator (dispatch s e))
  = textContent (loadingIndicator s).
Proof.
  intros He.
  destruct s as [li ar dr pp sc cam rn [m |] co fr];
    destruct e as [g | err | | | cx cy | cx cy | | ts | ts | | w h |];
    try discriminate; try (split; reflexivity);
    try (destruct ts; split; reflexivity);
    try (destruct dr; split; reflexivity);
    try (destruct ar; split; reflexivity);
    destruct dr, ts; split; reflexivity.
Qed.

(** C1. Every invocation of the loader's error callback completes normally,
    logs the error once on the console and sets the indicator's text to
    ['Error loading model']; the handler of any other event, whether it
    completes or throws, writes nothing to the console and leaves the
    indicator's text as it was. *)
Theorem single_failure_path (s : Viewer) :
  (forall error,
     exists s',
       handle (GLTFError error) s = Normal tt s' /\
       textContent (loadingIndicator s') = "Error loading model"%string /\
       console s' = console s ++ [("Error loading model:"%string, error)]) /\
  (forall e,
     is_load_error e = false ->
     console (dispatch s e) = console s /\
     textContent (loadingIndicator (dispatch s e))
     = textContent (loadingIndicator s)).
Proof.
  split.
  - intros error. eexists. split; [reflexivity |]. split; reflexivity.
  - intros e. apply only_load_error_reports.
Qed.

(** *** The model before and after loading *)

Lemma no_model_without_load (e : Event) (s : Viewer) :
  is_load_completion e = false ->
  model s = None ->
  model (dispatch s e) = None.
Proof.
  intros He Hm.
  destruct s as [li ar dr pp sc cam rn m co fr]; simpl in Hm; subst m.
  destruct e as [g | err | | | cx cy | cx cy | | ts | ts | | w h |];
    try discriminate; try reflexivity;
    try (destruct ts; reflexivity);
    try (destruct dr; reflexivity);
    try (destruct ar; reflexivity);
    destruct dr, ts; reflexivity.
Qed.

Lemma no_model_before_load (events : list Event) (s : Viewer) :
  forallb (fun e => negb (is_load_completion e)) events = true ->
  model s = None ->
  model (run events s) = None.
Proof.
  revert s.
  induction events as [| e events IH]; intros s Hall Hm.
  - exact Hm.
  - simpl in Hall. apply andb_true_iff in Hall as [He Hall].
    apply negb_true_iff in He.
    simpl. apply IH; [exact Hall |].
    now apply no_model_without_load.
Qed.

Lemma dereference_throws (e : Event) (s : Viewer) :
  dereferences_model e s = true ->
  model s = None ->
  exists reading s', handle e s = Throw (TypeError reading) s'.
Proof.
  intros Hd Hm.
  destruct s as [li ar dr pp sc cam rn m co fr]; simpl in Hm; subst m.
  destruct e as [g | err | | | cx cy | cx cy | | ts | [| t ts] | | w h |];
    simpl in Hd; try discriminate; subst;
    do 2 eexists; cbv; reflexivity.
Qed.

Lemma dereference_defined (e : Event) (s : Viewer) (m : Object3D) :
  dereferences_model e s = true ->
  model s = Some m ->
  threw (handle e s) = false.
Proof.
  intros Hd Hm.
  destruct s as [li ar dr pp sc cam rn m' co fr]; simpl in Hm; subst m'.
  destruct e as [g | err | | | cx cy | cx cy | | ts | [| t ts] | | w h |];
    simpl in Hd; try discriminate; subst; reflexivity.
Qed.

(** C9. For the reset click, a move while dragging, a frame while
    auto-rotating and a resize: when [this.model] is undefined the handler
    throws a [TypeError]; when it is defined the handler completes
    normally.  [this.model] is undefined in every state the page reaches
    from construction through events other than the load-completion callback
    (the load-error callback included), so there each of these handlers
    throws; and the load-completion callback defines it. *)
Theorem model_dereference_unguarded (e : Event) (s : Viewer) :
  dereferences_model e s = true ->
  (model s = None ->
   exists reading s', handle e s = Throw (TypeError reading) s') /\
  (forall m, model s = Some m -> threw (handle e s) = false) /\
  (forall rectWidth rectHeight text events,
     forallb (fun ev => negb (is_load_completion ev)) events = true ->
     s = run events (new_CybermodelViewer rectWidth rectHeight text) ->
     exists reading s', handle e s = Throw (TypeError reading) s') /\
  (forall gltfScene,
     exists s' m,
       handle (GLTFLoaded gltfScene) s = Normal tt s' /\ model s' = Some m).
Proof.
  intros Hd. repeat split.
  - now apply dereference_throws.
  - intros m. now apply dereference_defined.
  - intros w h text events Hall ->.
    apply dereference_throws; [exact Hd |].
    now apply no_model_before_load.
  - intros g. destruct s. do 2 eexists. split; reflexivity.
Qed.

(** *** What each handler writes *)

Lemma control_event_frame (e : Event) (s : Viewer) :
  is_control_event e = true ->
  kept_besides_controls s (dispatch s e).
Proof.
  intros He.
  destruct s as [li ar dr pp sc cam rn [m |] co fr];
    destruct e as [g | err | | | cx cy | cx cy | | ts | ts | | w h |];
    try discriminate;
    try (repeat split; reflexivity);
    try (destruct ts; repeat split; reflexivity);
    try (destruct dr; repeat split; reflexivity);
    try (destruct ar; repeat split; reflexivity);
    destruct dr, ts; repeat split; reflexivity.
Qed.

Lemma reset_frame (s : Viewer) :
  kept_by_reset s (dispatch s ResetViewClick).
Proof.
  destruct s as [li ar dr pp sc cam rn [m |] co fr];
    repeat split; reflexivity.
Qed.

Lemma resize_frame (rectWidth rectHeight : float) (s : Viewer) :
  kept_by_resize s (dispatch s (WindowResize rectWidth rectHeight)).
Proof.
  destruct s as [li ar dr pp sc cam rn [m |] co fr];
    repeat split; reflexivity.
Qed.

(** C6, as amended.  Whether its handler completes or throws: a pointer,
    touch, toggle-button or frame event changes nothing of the viewer
    besides the drag flag, the previous pointer position, the auto-rotate
    flag and the model's x and y angles; a reset click changes nothing
    besides the model's three angles and the camera's position and
    orientation; a resize changes nothing besides the renderer's size and
    the camera's aspect, position and orientation. *)
Theorem handler_write_sets (e : Event) (s : Viewer) :
  (is_control_event e = true -> kept_besides_controls s (dispatch s e)) /\
  (e = ResetViewClick -> kept_by_reset s (dispatch s e)) /\
  (forall rectWidth rectHeight,
     e = WindowResize rectWidth rectHeight ->
     kept_by_resize s (dispatch s e)).
Proof.
  split; [| split].
  - apply control_event_frame.
  - intros ->. apply reset_frame.
  - intros w h ->. apply resize_frame.
Qed.

(** *** A whole drag *)

Lemma accumulate_cons (angle inc : float) (incs : list float) :
  accumulate angle (inc :: incs) = accumulate (angle + inc) incs.
Proof. reflexivity. Qed.

Lemma last_cons_default {A} (l : list A) (a d d' : A) :
  last (a :: l) d = last (a :: l) d'.
Proof.
  revert a. induction l as [| b l IH]; intros a; [reflexivity |].
  change (last (b :: l) d = last (b :: l) d'). apply IH.
Qed.

Lemma moves_accumulate (moves : list Event) :
  forall (ps : list Position.t) (s : Viewer) (m : Object3D),
    map move_target moves = map Some ps ->
    isDragging s = true ->
    model s = Some m ->
    exists m',
      model (run moves s) = Some m' /\
      Euler.y (rotation m')
      = accumulate (Euler.y (rotation m))
          (increments (Position.x (previousPosition s))
                      (map Position.x ps)) /\
      Euler.x (rotation m')
      = accumulate (Euler.x (rotation m))
          (increments (Position.y (previousPosition s))
                      (map Position.y ps)) /\
      Euler.z (rotation m') = Euler.z (rotation m) /\
      previousPosition (run moves s) = last ps (previousPosition s) /\
      isDragging (run moves s) = true.
Proof.
  induction moves as [| e moves IH]; intros ps s m Hps Hd Hm.
  - destruct ps as [| p ps]; [| discriminate].
    exists m. simpl. repeat split; assumption.
  - destruct ps as [| p ps]; [discriminate |].
    simpl in Hps. injection Hps as He Hps.
    pose proof (move_while_dragging e s m p He Hd Hm) as Hstep.
    change (run (e :: moves) s) with (run moves (dispatch s e)).
    change (dispatch s e) with (state_of (handle e s)).
    rewrite Hstep. simpl state_of.
    set (m1 := mkObject3D
                 (Euler.mk
                    (Euler.x (rotation m)
                     + (Position.y p - Position.y (previousPosition s)) * 0.005)
                    (Euler.y (rotation m)
                     + (Position.x p - Position.x (previousPosition s)) * 0.005)
                    (Euler.z (rotation m)))
                 (nodes m)).
    destruct (IH ps (rotated (Position.x p) (Position.y p) m s) m1 Hps Hd
                 eq_refl)
      as (m' & Hm' & Hy & Hx & Hz & Hprev & Hdrag).
    exists m'. simpl map. simpl increments. rewrite !accumulate_cons.
    repeat split; try assumption.
    rewrite Hprev. destruct p as [cx cy]. simpl.
    destruct ps as [| q ps]; [reflexivity |].
    apply last_cons_default.
Qed.

(** C10, as amended.  A press at p0 followed by moves to p1, ..., pn (mouse
    or touch, no release in between) on a loaded model ends with the y angle
    equal to the starting angle plus the increments
    (p1.x - p0.x) * 0.005, ..., (pn.x - p(n-1).x) * 0.005 added one after
    the other in double precision, the x angle likewise from the y
    coordinates, the z angle untouched, the stored position equal to the
    last one reported and the drag flag set.  For a single move this is the
    starting angle plus 0.005 * (p1.x - p0.x); and handling the moves in two
    batches gives the state that handling them in one sequence gives. *)
Theorem drag_accumulates (press : Event) (moves : list Event)
  (p0 : Position.t) (ps : list Position.t) (s : Viewer) (m : Object3D) :
  press_target press = Some p0 ->
  map move_target moves = map Some ps ->
  model s = Some m ->
  exists m',
    model (run (press :: moves) s) = Some m' /\
    Euler.y (rotation m')
    = accumulate (Euler.y (rotation m))
        (increments (Position.x p0) (map Position.x ps)) /\
    Euler.x (rotation m')
    = accumulate (Euler.x (rotation m))
        (increments (Position.y p0) (map Position.y ps)) /\
    Euler.z (rotation m') = Euler.z (rotation m) /\
    previousPosition (run (press :: moves) s) = last ps p0 /\
    isDragging (run (press :: moves) s) = true /\
    (forall p1,
       ps = [p1] ->
       Euler.y (rotation m')
       = Euler.y (rotation m) + 0.005 * (Position.x p1 - Position.x p0) /\
       Euler.x (rotation m')
       = Euler.x (rotation m) + 0.005 * (Position.y p1 - Position.y p0)) /\
    (forall moves1 moves2,
       moves = moves1 ++ moves2 ->
       run (press :: moves) s = run moves2 (run (press :: moves1) s)).
Proof.
  intros Hpress Hps Hm.
  assert (Hs1 : dispatch s press
                = set_previousPosition p0 (set_isDragging true s)).
  { destruct press as [| | | | cx cy | | | [| t ts] | | | |];
      try discriminate; injection Hpress as <-; reflexivity. }
  destruct (moves_accumulate moves ps
              (set_previousPosition p0 (set_isDragging true s)) m
              Hps eq_refl Hm)
    as (m' & Hm' & Hy & Hx & Hz & Hprev & Hdrag).
  assert (Hbatch : forall moves1 moves2,
             moves = moves1 ++ moves2 ->
             run (press :: moves) s = run moves2 (run (press :: moves1) s)).
  { intros moves1 moves2 ->.
    change (fold_left dispatch (moves1 ++ moves2) (dispatch s press)
            = fold_left dispatch moves2
                (fold_left dispatch moves1 (dispatch s press))).
    apply fold_left_app. }
  exists m'.
  change (run (press :: moves) s) with (run moves (dispatch s press)) at 1 2 3.
  rewrite Hs1.
  do 6 (split; [assumption |]).
  split; [| exact Hbatch].
  intros p1 ->. rewrite Hy, Hx. simpl.
  unfold accumulate. simpl.
  now rewrite !(float_mul_comm 0.005).
Qed.

(** *** [optimizeModel] and the load-completion callback *)

Lemma optimizeNode_idempotent (n : Node) :
  optimizeNode (optimizeNode n) = optimizeNode n.
Proof. destruct n as [[|] [mat |] cs rs]; reflexivity. Qed.

Lemma optimized_idempotent (g : Object3D) :
  optimized (optimized g) = optimized g.
Proof.
  unfold optimized. simpl. f_equal.
  rewrite map_map. apply map_ext. exact optimizeNode_idempotent.
Qed.

Lemma optimizeModel_loaded (s : Viewer) (m : Object3D) :
  model s = Some m ->
  optimizeModel s = Normal tt (set_model (Some (optimized m)) s).
Proof.
  intros Hm. destruct s; simpl in Hm; subst. reflexivity.
Qed.

(** X1. With the model loaded, [optimizeModel] completes normally and
    rewrites the visited objects in place: their number, their order and the
    root's rotation are kept; an object that is a mesh with a material gets
    metalness 0.9, roughness 0.3 and both shadow flags; every other object
    is left exactly as it was; and running the method again changes
    nothing. *)
Theorem optimizeModel_effect (s : Viewer) (m : Object3D) :
  model s = Some m ->
  exists s' m',
    optimizeModel s = Normal tt s' /\
    model s' = Some m' /\
    rotation m' = rotation m /\
    List.length (nodes m') = List.length (nodes m) /\
    (forall i n,
       nth_error (nodes m) i = Some n ->
       exists n',
         nth_error (nodes m') i = Some n' /\
         isMesh n' = isMesh n /\
         (isMesh n = true -> material n <> None ->
          material n' = Some (mkMaterial 0.9 0.3) /\
          castShadow n' = true /\ receiveShadow n' = true) /\
         (isMesh n = false \/ material n = None -> n' = n)) /\
    optimizeModel s' = Normal tt s'.
Proof.
  intros Hm.
  exists (set_model (Some (optimized m)) s), (optimized m).
  split; [now apply optimizeModel_loaded |].
  split; [reflexivity |]. split; [reflexivity |].
  split; [apply length_map |]. split.
  - intros i n Hn. exists (optimizeNode n).
    split; [simpl; now rewrite nth_error_map, Hn |].
    destruct n as [[|] [mat |] cs rs]; simpl;
      (split; [reflexivity |]); split;
      try (intros; repeat split; reflexivity);
      try (intros; discriminate); try (intros _ H; now elim H);
      try (intros [H | H]; discriminate).
  - rewrite (optimizeModel_loaded (set_model (Some (optimized m)) s)
                                  (optimized m) eq_refl).
    rewrite optimized_idempotent.
    destruct s; reflexivity.
Qed.


(** *** The animation loop *)

Lemma frame_step (e : Event) (s : Viewer) :
  (frameRequests (dispatch s e)
   = frameRequests s + (if is_frame e then 1 else 0) /\
   frames (renderer (dispatch s e))
   <= frames (renderer s) + (if is_frame e then 1 else 0))%nat.
Proof.
  destruct s as [li ar dr pp sc cam rn [m |] co fr];
    destruct e as [g | err | | | cx cy | cx cy | | ts | ts | | w h |];
    try (destruct ts); try (destruct dr); try (destruct ar);
    simpl; split; lia.
Qed.

(** X3. After any sequence of events the number of frames requested has
    grown by exactly the number of animation frames in the sequence (a frame
    requests its successor before anything can throw, and no other handler
    requests one), and the number of frames drawn has grown by no more. *)
Theorem frames_requested (events : list Event) (s : Viewer) :
  (frameRequests (run events s)
   = frameRequests s + List.length (filter is_frame events) /\
   frames (renderer (run events s))
   <= frames (renderer s) + List.length (filter is_frame events))%nat.
Proof.
  revert s. induction events as [| e events IH]; intros s.
  - simpl. split; lia.
  - change (run (e :: events) s) with (run events (dispatch s e)).
    destruct (IH (dispatch s e)) as [IHr IHd].
    destruct (frame_step e s) as [Hr Hd].
    simpl filter. destruct (is_frame e); simpl List.length; split; lia.
Qed.


(** *** What holds in every state the page reaches *)

Lemma camera_step (e : Event) (s : Viewer) :
  fov (camera (dispatch s e)) = fov (camera s) /\
  near (camera (dispatch s e)) = near (camera s) /\
  far (camera (dispatch s e)) = far (camera s) /\
  (aspect (camera s) = width (renderer s) / height (renderer s) ->
   aspect (camera (dispatch s e))
   = width (renderer (dispatch s e)) / height (renderer (dispatch s e))).
Proof.
  destruct s as [li ar dr pp sc cam rn [m |] co fr];
    destruct e as [g | err | | | cx cy | cx cy | | ts | ts | | w h |];
    try (destruct ts); try (destruct dr); try (destruct ar);
    simpl; repeat split; try reflexivity; intros H; exact H.
Qed.

(** X5. In every state reached from construction, through any events, the
    camera still has the field of view 45, near plane 0.1 and far plane 1000
    it was built with, and its aspect is the renderer's width divided by its
    height (also after a resize whose handler threw). *)
Theorem camera_invariants (rectWidth rectHeight : float) (text : string)
  (events : list Event) :
  let s := run events (new_CybermodelViewer rectWidth rectHeight text) in
  fov (camera s) = 45 /\
  near (camera s) = 0.1 /\
  far (camera s) = 1000 /\
  aspect (camera s) = width (renderer s) / height (renderer s).
Proof.
  assert (Hgen : forall evs s,
             fov (camera s) = 45 /\ near (camera s) = 0.1 /\
             far (camera s) = 1000 /\
             aspect (camera s) = width (renderer s) / height (renderer s) ->
             fov (camera (run evs s)) = 45 /\
             near (camera (run evs s)) = 0.1 /\
             far (camera (run evs s)) = 1000 /\
             aspect (camera (run evs s))
             = width (renderer (run evs s)) / height (renderer (run evs s))).
  { induction evs as [| e evs IH]; intros s Hs; [exact Hs |].
    change (run (e :: evs) s) with (run evs (dispatch s e)).
    apply IH.
    destruct Hs as (Hf & Hn & Hfar & Ha).
    destruct (camera_step e s) as (Hf' & Hn' & Hfar' & Ha').
    rewrite Hf', Hn', Hfar'. auto. }
  apply Hgen. repeat split; reflexivity.
Qed.

Lemma scene_step (e : Event) (s : Viewer) :
  scene (dispatch s e)
  = scene s ++ (if is_load_completion e then [SceneModel] else []).
Proof.
  destruct s as [li ar dr pp sc cam rn [m |] co fr];
    destruct e as [g | err | | | cx cy | cx cy | | ts | ts | | w h |];
    try (destruct ts); try (destruct dr); try (destruct ar);
    simpl; rewrite ?app_nil_r; reflexivity.
Qed.

(** X6. No handler ever removes or reorders a child of the scene: after any
    events the scene is the one before, followed by one reference to the
    model per load completion.  From construction that is the two lights and
    then the model references. *)
Theorem scene_only_grows (events : list Event) (s : Viewer) :
  scene (run events s)
  = scene s
    ++ repeat SceneModel (List.length (filter is_load_completion events)) /\
  (forall rectWidth rectHeight text,
     s = new_CybermodelViewer rectWidth rectHeight text ->
     scene (run events s)
     = the_lights
       ++ repeat SceneModel
            (List.length (filter is_load_completion events))).
Proof.
  assert (Hgen : forall evs s0,
             scene (run evs s0)
             = scene s0
               ++ repeat SceneModel
                    (List.length (filter is_load_completion evs))).
  { induction evs as [| e evs IH]; intros s0.
    - simpl. now rewrite app_nil_r.
    - change (run (e :: evs) s0) with (run evs (dispatch s0 e)).
      rewrite IH, scene_step. simpl filter.
      destruct (is_load_completion e); simpl.
      + now rewrite <- app_assoc.
      + now rewrite app_nil_r. }
  split; [apply Hgen |].
  intros w h text ->. apply Hgen.
Qed.

Lemma indicator_step (e : Event) (s : Viewer) :
  loaded (dispatch s e) = loaded s || is_load_completion e /\
  display (loadingIndicator (dispatch s e))
  = (if is_load_completion e then "none"%string
     else display (loadingIndicator s)) /\
  textContent (loadingIndicator (dispatch s e))
  = (if is_load_error e then "Error loading model"%string
     else textContent (loadingIndicator s)).
Proof.
  destruct s as [li ar dr pp sc cam rn [m |] co fr];
    destruct e as [g | err | | | cx cy | cx cy | | ts | ts | | w h |];
    try (destruct ts); try (destruct dr); try (destruct ar);
    simpl; repeat split; reflexivity.
Qed.

(** X7. In every state reached from construction: the model is defined
    exactly when a load completion has occurred (it is never unset); the
    indicator is displayed (['block']) until the first load completion and
    hidden (['none']) from then on; and its text is the page's own until the
    first load error and ['Error loading model'] from then on. *)
Theorem load_status (rectWidth rectHeight : float) (text : string)
  (events : list Event) :
  let s := run events (new_CybermodelViewer rectWidth rectHeight text) in
  loaded s = existsb is_load_completion events /\
  display (loadingIndicator s)
  = (if existsb is_load_completion events then "none" else "block")%string /\
  textContent (loadingIndicator s)
  = (if existsb is_load_error events then "Error loading model"%string
     else text).
Proof.
  assert (Hgen : forall evs s,
             loaded (run evs s) = loaded s || existsb is_load_completion evs /\
             display (loadingIndicator (run evs s))
             = (if existsb is_load_completion evs then "none"%string
                else display (loadingIndicator s)) /\
             textContent (loadingIndicator (run evs s))
             = (if existsb is_load_error evs then "Error loading model"%string
                else textContent (loadingIndicator s))).
  { induction evs as [| e evs IH]; intros s.
    - simpl. rewrite orb_false_r. repeat split; reflexivity.
    - change (run (e :: evs) s) with (run evs (dispatch s e)).
      destruct (IH (dispatch s e)) as (Hl & Hd & Ht).
      destruct (indicator_step e s) as (Hl' & Hd' & Ht').
      rewrite Hl, Hd, Ht, Hl', Hd', Ht'. simpl existsb.
      repeat split.
      + now rewrite orb_assoc.
      + destruct (is_load_completion e), (existsb is_load_completion evs);
          reflexivity.
      + destruct (is_load_error e), (existsb is_load_error evs);
          reflexivity. }
  apply Hgen.
Qed.

(** *** Sequences of user actions *)

Lemma move_not_dragging (e : Event) (s : Viewer) :
  is_move e = true ->
  isDragging s = false ->
  dispatch s e = s.
Proof.
  intros He Hd.
  destruct s as [li ar dr pp sc cam rn m co fr]; simpl in Hd; subst dr.
  destruct e; try discriminate; reflexivity.
Qed.

Lemma moves_not_dragging (moves : list Event) (s : Viewer) :
  forallb is_move moves = true ->
  isDragging s = false ->
  run moves s = s.
Proof.
  induction moves as [| e moves IH]; intros Hall Hd; [reflexivity |].
  simpl in Hall. apply andb_true_iff in Hall as [He Hall].
  change (run (e :: moves) s) with (run moves (dispatch s e)).
  rewrite (move_not_dragging e s He Hd). now apply IH.
Qed.

(** X8. A release (mouse up or touch end) ends the drag: the moves that
    follow it, however many and wherever to, change nothing, so the state is
    the one the release left, which is the state before it with the drag
    flag cleared. *)
Theorem release_ends_drag (release : Event) (moves : list Event)
  (s : Viewer) :
  is_release release = true ->
  forallb is_move moves = true ->
  run (release :: moves) s = set_isDragging false s.
Proof.
  intros Hr Hall.
  change (run (release :: moves) s) with (run moves (dispatch s release)).
  assert (Hs : dispatch s release = set_isDragging false s)
    by (destruct release; try discriminate; reflexivity).
  rewrite Hs. now apply moves_not_dragging.
Qed.





(** *** Framing: edge cases *)

(** X11. A resize that arrives before the model is loaded throws a
    [TypeError] in [fitModelToContainer], but [updateRendererSize] has run
    by then: the renderer has the container's new size and the camera's
    aspect is the new width over the new height, while the camera's position
    and orientation and everything else are as before. *)
Theorem resize_before_load (rectWidth rectHeight : float) (s : Viewer) :
  model s = None ->
  exists s',
    handle (WindowResize rectWidth rectHeight) s
    = Throw (TypeError "updateWorldMatrix") s' /\
    width (renderer s') = rectWidth /\
    height (renderer s') = rectHeight /\
    aspect (camera s') = rectWidth / rectHeight /\
    position (camera s') = position (camera s) /\
    lookedAt (camera s') = lookedAt (camera s) /\
    kept_by_resize s s'.
Proof.
  intros Hm. destruct s; simpl in Hm; subst.
  eexists. split; [reflexivity |].
  simpl. unfold kept_by_resize. simpl. repeat split; reflexivity.
Qed.


(** X13. Handling the same resize twice gives the state that handling it
    once gives, whether the model is loaded or not. *)
Theorem resize_idempotent (rectWidth rectHeight : float) (s : Viewer) :
  dispatch (dispatch s (WindowResize rectWidth rectHeight))
           (WindowResize rectWidth rectHeight)
  = dispatch s (WindowResize rectWidth rectHeight).
Proof.
  destruct s as [li ar dr pp sc cam rn [m |] co fr]; reflexivity.
Qed.

(** *** The order of binary64 numbers, [Math.max] and [Math.abs] *)

Ltac order_cases :=
  repeat match goal with
  | |- context [Pos.compare_cont Eq ?a ?b] =>
      change (Pos.compare_cont Eq a b) with (Pos.compare a b)
  | H : context [Pos.compare_cont Eq ?a ?b] |- _ =>
      change (Pos.compare_cont Eq a b) with (Pos.compare a b) in H
  | |- context [Z.compare ?a ?b] => destruct (Z.compare_spec a b)
  | H : context [Z.compare ?a ?b] |- _ => destruct (Z.compare_spec a b)
  | |- context [Pos.compare ?a ?b] => destruct (Pos.compare_spec a b)
  | H : context [Pos.compare ?a ?b] |- _ => destruct (Pos.compare_spec a b)
  end.

Lemma SFleb_trans (x y z : spec_float) :
  SFleb x y = true -> SFleb y z = true -> SFleb x z = true.
Proof.
  unfold SFleb, SFcompare.
  destruct x as [[|] | [|] | | [|] mx ex];
    destruct y as [[|] | [|] | | [|] my ey];
    destruct z as [[|] | [|] | | [|] mz ez];
    try reflexivity; try discriminate;
    intros H1 H2; order_cases; simpl in *;
    try reflexivity; try discriminate; lia.
Qed.

Lemma SFleb_refl (x : spec_float) : x <> S754_nan -> SFleb x x = true.
Proof.
  unfold SFleb, SFcompare.
  destruct x as [[|] | [|] | | [|] mx ex]; try reflexivity; try congruence;
    intros _; order_cases; try reflexivity; lia.
Qed.

Lemma SFnot_ltb_leb (x y : spec_float) :
  x <> S754_nan -> y <> S754_nan -> SFltb x y = false -> SFleb y x = true.
Proof.
  unfold SFleb, SFltb, SFcompare.
  destruct x as [[|] | [|] | | [|] mx ex];
    destruct y as [[|] | [|] | | [|] my ey];
    try reflexivity; try discriminate; try congruence;
    intros _ _ H; order_cases; simpl in *;
    try reflexivity; try discriminate; lia.
Qed.

Lemma not_nan_spec (a : float) : is_nan a = false -> Prim2SF a <> S754_nan.
Proof.
  unfold is_nan. rewrite FloatAxioms.eqb_spec. intros H Hn. rewrite Hn in H.
  discriminate.
Qed.

Lemma leb_trans (a b c : float) :
  (a <=? b) = true -> (b <=? c) = true -> (a <=? c) = true.
Proof. rewrite !FloatAxioms.leb_spec. apply SFleb_trans. Qed.

Lemma leb_refl (a : float) : is_nan a = false -> (a <=? a) = true.
Proof. intros H. rewrite FloatAxioms.leb_spec. now apply SFleb_refl, not_nan_spec. Qed.

Lemma ltb_leb (a b : float) : (a <? b) = true -> (a <=? b) = true.
Proof.
  rewrite FloatAxioms.ltb_spec, FloatAxioms.leb_spec. unfold SFltb, SFleb.
  destruct (SFcompare (Prim2SF a) (Prim2SF b)) as [[| |] |]; congruence.
Qed.

Lemma not_ltb_leb (a b : float) :
  is_nan a = false -> is_nan b = false ->
  (a <? b) = false -> (b <=? a) = true.
Proof.
  intros Ha Hb. rewrite FloatAxioms.ltb_spec, FloatAxioms.leb_spec.
  apply SFnot_ltb_leb; now apply not_nan_spec.
Qed.

Lemma neg_zero_leb_pos_zero (a b : float) :
  is_pos_zero b && is_neg_zero a = true -> (a <=? b) = true.
Proof.
  unfold is_pos_zero, is_neg_zero. rewrite !FloatAxioms.classify_spec, FloatAxioms.leb_spec.
  unfold SF64classify, SFclassify.
  destruct (Prim2SF a) as [[|] | [|] | | [|] ma ea];
    destruct (Prim2SF b) as [[|] | [|] | | [|] mb eb];
    simpl; try discriminate; try reflexivity;
    repeat match goal with
           | |- context [if ?c then _ else _] => destruct c
           end; simpl; discriminate.
Qed.

Lemma Math_max_from_nan (values : list float) :
  forall highest,
    existsb is_nan values = true -> Math_max_from highest values = nan.
Proof.
  induction values as [| number rest IH]; intros highest Hex;
    [discriminate |].
  simpl in *. destruct (is_nan number); [reflexivity |].
  simpl in Hex.
  destruct (is_pos_zero number && is_neg_zero highest);
    [now apply IH |].
  destruct (highest <? number); now apply IH.
Qed.

Lemma Math_max_from_bounds (values : list float) :
  forall highest,
    is_nan highest = false ->
    existsb is_nan values = false ->
    let result := Math_max_from highest values in
    (highest <=? result) = true /\
    (forall v, In v values -> (v <=? result) = true) /\
    (result = highest \/ In result values).
Proof.
  induction values as [| number rest IH]; intros highest Hh Hex.
  - simpl. split; [now apply leb_refl |]. split; [intros v [] | now left].
  - simpl in Hex. apply orb_false_iff in Hex as [Hn Hex].
    simpl. rewrite Hn.
    destruct (is_pos_zero number && is_neg_zero highest) eqn:Hzero;
      [| destruct (highest <? number) eqn:Hlt].
    + destruct (IH number Hn Hex) as (Hle & Hall & Hin).
      split; [| split].
      * apply (leb_trans _ number); [| exact Hle].
        now apply neg_zero_leb_pos_zero.
      * intros v [<- | Hv]; [exact Hle | now apply Hall].
      * right. destruct Hin as [-> | Hin]; [now left | now right].
    + destruct (IH number Hn Hex) as (Hle & Hall & Hin).
      split; [| split].
      * apply (leb_trans _ number); [now apply ltb_leb | exact Hle].
      * intros v [<- | Hv]; [exact Hle | now apply Hall].
      * right. destruct Hin as [-> | Hin]; [now left | now right].
    + destruct (IH highest Hh Hex) as (Hle & Hall & Hin).
      split; [exact Hle | split].
      * intros v [<- | Hv]; [| now apply Hall].
        apply (leb_trans _ highest); [| exact Hle].
        now apply not_ltb_leb.
      * destruct Hin as [-> | Hin]; [now left | right; now right].
Qed.

(** X14. [Math.max], as [fitModelToContainer] uses it for [maxDim]: if an
    argument is NaN the result is NaN; otherwise the result is greater than
    or equal to every argument and, when there is an argument, is one of
    them (with no argument it is -Infinity). *)
Theorem Math_max_greatest (values : list float) :
  (existsb is_nan values = true -> Math_max values = nan) /\
  (existsb is_nan values = false ->
   (forall v, In v values -> (v <=? Math_max values) = true) /\
   (values <> [] -> In (Math_max values) values) /\
   (values = [] -> Math_max values = neg_infinity)).
Proof.
  split; [apply Math_max_from_nan |].
  intros Hex.
  destruct (Math_max_from_bounds values neg_infinity eq_refl Hex)
    as (_ & Hall & Hin).
  split; [exact Hall | split].
  - intros Hne. destruct Hin as [Heq | Hin]; [| exact Hin].
    destruct values as [| v rest]; [now elim Hne |].
    left.
    (* -Infinity can only be the result if it is below nothing else:
       then the first argument is below it, hence is -Infinity. *)
    assert (Hv : (v <=? neg_infinity) = true).
    { unfold Math_max in Heq. rewrite <- Heq. apply Hall. now left. }
    simpl in Hex. apply orb_false_iff in Hex as [Hn _].
    unfold Math_max. rewrite Heq.
    apply Prim2SF_inj.
    rewrite FloatAxioms.leb_spec in Hv. apply not_nan_spec in Hn.
    change (Prim2SF neg_infinity) with (S754_infinity true) in *.
    destruct (Prim2SF v) as [[|] | [|] | | [|] mv ev];
      try discriminate; try reflexivity; now elim Hn.
  - intros ->. reflexivity.
Qed.

Lemma binary_round_aux_sign (prec emax : Z) (sx : bool) (mx ex : Z)
  (lx : location) :
  binary_round_aux prec emax sx mx ex lx = S754_nan \/
  binary_round_aux prec emax sx mx ex lx = S754_zero sx \/
  binary_round_aux prec emax sx mx ex lx = S754_infinity sx \/
  exists m e, binary_round_aux prec emax sx mx ex lx = S754_finite sx m e.
Proof.
  unfold binary_round_aux.
  destruct (shr_fexp prec emax mx ex lx) as [mrs' e'].
  destruct (shr_fexp prec emax _ e' loc_Exact) as [mrs'' e''].
  destruct (shr_m mrs'') as [| m | m]; [now (right; left) | | now left].
  destruct (Z.leb e'' (emax - prec)); right; right;
    [right; now exists m, e'' | now left].
Qed.

Lemma abs_times_positive_not_negative (q c : float) :
  (0 <? c) = true -> (Math_abs q * c <? 0) = false.
Proof.
  unfold Math_abs. rewrite !FloatAxioms.ltb_spec, FloatAxioms.mul_spec, FloatAxioms.abs_spec.
  change (Prim2SF 0) with (S754_zero false).
  unfold SF64mul, SFmul, SFabs, SFltb, SFcompare.
  destruct (Prim2SF q) as [sq | sq | | sq mq eq];
    destruct (Prim2SF c) as [[|] | [|] | | [|] mc ec];
    try discriminate; try reflexivity; intros _.
  destruct (binary_round_aux_sign prec emax (xorb false false)
              (Z.pos (mq * mc)) (eq + ec) loc_Exact)
    as [H | [H | [H | (m & e & H)]]]; rewrite H; reflexivity.
Qed.

Lemma position_step (e : Event) (s : Viewer) :
  position (camera (dispatch s e)) = position (camera s) \/
  exists size cameraFov,
    position (camera (dispatch s e))
    = framing_position Math_tan size cameraFov.
Proof.
  destruct s as [li ar dr pp sc cam rn [m |] co fr];
    destruct e as [g | err | | | cx cy | cx cy | | ts | ts | | w h |];
    try (destruct ts); try (destruct dr); try (destruct ar);
    simpl; try (now left); right; do 2 eexists; reflexivity.
Qed.

(** X15. Wherever the handlers put the camera, it is on the plane x = 0
    and never at a negative z: this holds in every state reached from
    construction, whatever the bounding boxes and whatever [Math.tan]
    returns (z may be NaN or infinite, not below zero). *)
Theorem camera_never_behind (rectWidth rectHeight : float) (text : string)
  (events : list Event) :
  let s := run events (new_CybermodelViewer rectWidth rectHeight text) in
  Vector3.x (position (camera s)) = 0 /\
  (Vector3.z (position (camera s)) <? 0) = false.
Proof.
  assert (Hgen : forall evs s,
             Vector3.x (position (camera s)) = 0 /\
             (Vector3.z (position (camera s)) <? 0) = false ->
             Vector3.x (position (camera (run evs s))) = 0 /\
             (Vector3.z (position (camera (run evs s))) <? 0) = false).
  { induction evs as [| e evs IH]; intros s Hs; [exact Hs |].
    change (run (e :: evs) s) with (run evs (dispatch s e)).
    apply IH.
    destruct (position_step e s) as [-> | (size & f & ->)]; [exact Hs |].
    split; [reflexivity |].
    simpl. now apply abs_times_positive_not_negative. }
  apply Hgen. split; reflexivity.
Qed.

(** *** The page: construction, wiring and [destroy] *)

Ltac construct_case :=
  repeat match goal with
         | H : exists _, _ |- _ => destruct H
         | H : _ /\ _ |- _ => destruct H
         | H : Constructed _ = Constructed _ |- _ => injection H as <-
         | H : ConstructionThrew _ _ _ _ = ConstructionThrew _ _ _ _ |- _ =>
             injection H as <- <- <- <-
         | H : Some _ = Some _ |- _ => injection H; clear H; intros; subst
         | H : In _ [] |- _ => destruct H
         | H : In _ (setupControls_reset []) |- _ => destruct H as [<- | []]
         end;
  simpl in *; try discriminate; try congruence;
  repeat split; intros;
  repeat match goal with
         | H : exists _, _ |- _ => destruct H
         | H : _ /\ _ |- _ => destruct H
         | H : Some _ = Some _ |- _ => injection H; clear H; intros; subst
         end;
  simpl in *; try discriminate; try congruence; eauto;
  try (do 2 eexists; split; reflexivity);
  try match goal with
      | H : False |- _ => destruct H
      | H : _ = ?r \/ False |- target ?r = _ => destruct H as [<- | []]
      end;
  try reflexivity;
  try (repeat (constructor; [simpl; intuition discriminate |]); constructor).

(** X16. The constructor completes exactly when the container, its loading
    indicator and both buttons exist.  It then has registered nine
    listeners, all distinct, and inserted the canvas.  When it throws, no
    mouse, touch or resize listener has been registered (at most the reset
    button's click listener); the canvas has been inserted whenever the
    container exists, and the asset has already been requested whenever the
    container and its indicator exist. *)
Theorem construction_outcome (dom : Dom) :
  ((exists p, construct dom = Constructed p) <->
   (exists c text, container dom = Some c /\ indicator c = Some text) /\
   hasResetView dom = true /\ hasToggleRotation dom = true) /\
  (forall p,
     construct dom = Constructed p ->
     listeners p
     = [mkRegistration ResetViewButton (OfMouse click) resetViewListener;
        mkRegistration ToggleRotationButton (OfMouse click)
                       toggleRotationListener;
        mkRegistration Container (OfMouse mousedown) boundOnMouseDown;
        mkRegistration Document (OfMouse mousemove) boundOnMouseMove;
        mkRegistration Document (OfMouse mouseup) boundOnMouseUp;
        mkRegistration Container (OfTouch touchstart) boundOnTouchStart;
        mkRegistration Document (OfTouch touchmove) boundOnTouchMove;
        mkRegistration Document (OfTouch touchend) boundOnTouchEnd;
        mkRegistration Window resize boundOnWindowResize] /\
     NoDup (listeners p) /\
     canvasInContainer p = true /\
     rendererDisposed p = false) /\
  (forall reading canvasInserted loadRequested registered,
     construct dom
     = ConstructionThrew reading canvasInserted loadRequested registered ->
     (forall r, In r registered -> target r = ResetViewButton) /\
     (canvasInserted = true <-> container dom <> None) /\
     (loadRequested = true <->
      exists c text, container dom = Some c /\ indicator c = Some text)).
Proof.
  clear Math_tan Box3_center Box3_size.
  destruct dom as [[[w h [text |]] |] [|] [|]]; unfold construct; simpl;
    (split; [split | split]); intros; construct_case.
Qed.




Lemma filter_idempotent {A} (f : A -> bool) (l : list A) :
  filter f (filter f l) = filter f l.
Proof.
  induction l as [| a l IH]; [reflexivity |].
  simpl. destruct (f a) eqn:Hf; simpl; rewrite ?Hf, IH; reflexivity.
Qed.


(** X19. [destroy] completes exactly when the canvas is still a child of
    the container.  Called a second time it throws the [NotFoundError] of
    [removeChild]; by then it has gone through [removeEventListener] and
    [dispose] again, which change nothing the second time. *)
Theorem destroy_twice (p : Page) :
  ((exists p1, destroy p = Done p1) <-> canvasInContainer p = true) /\
  (forall p1,
     destroy p = Done p1 ->
     canvasInContainer p1 = false /\
     destroy p1 = NotFoundError p1).
Proof.
  destruct p as [v l [|] r]; split.
  - split; [reflexivity | intros _; eexists; reflexivity].
  - intros p1 H. injection H as <-. split; [reflexivity |].
    unfold destroy. simpl.
    unfold removeEventListener. now rewrite filter_idempotent.
  - split; [intros [p1 H]; discriminate | discriminate].
  - intros p1 H. discriminate.
Qed.

End Properties.

(** ** The properties on the sample page *)

(** C2 on the sample page: after a press at (10, 20), a mouse move to
    (14, 23). *)
Lemma drag_move_rotates_sample :
  exists s' m',
    handle sample_tan sample_center sample_size (MouseMove 14 23)
           sample_dragging = Normal tt s' /\
    model s' = Some m' /\
    Euler.y (rotation m') = 0 + 0.005 * (14 - 10) /\
    Euler.x (rotation m') = 0 + 0.005 * (23 - 20) /\
    Euler.z (rotation m') = 0 /\
    previousPosition s' = Position.mk 14 23.
Proof.
  exact (drag_move_rotates sample_tan sample_center sample_size
           (MouseMove 14 23) sample_dragging sample_optimized 14 23
           eq_refl eq_refl eq_refl).
Defined.

(** C7 on the sample page: a touch move with no drag in progress. *)
Lemma move_without_drag_sample :
  handle sample_tan sample_center sample_size
         (TouchMove [Touch.mk 14 23]) sample_loaded
  = Normal tt sample_loaded.
Proof.
  exact (move_without_drag_is_noop sample_tan sample_center sample_size
           (TouchMove [Touch.mk 14 23]) sample_loaded eq_refl eq_refl).
Defined.

(** C3 on the sample page: a box of size 2 x 1.8 x 5.6, a 45 degree
    camera. *)
Lemma camera_framing_sample :
  let eye :=
    Vector3.mk 0 (0.3 * 1.8)
      (1.8 * Math_abs (Math_max [2; 1.8; 5.6]
                       / (2 * sample_tan (45 * (Math_PI / 180) / 2)))) in
  (exists s',
     fitModelToContainer sample_tan sample_center sample_size sample_loaded
     = Normal tt s' /\
     position (camera s') = eye /\
     lookedAt (camera s') = Some (Vector3.mk 0 0.9 0)) /\
  handle sample_tan sample_center sample_size (WindowResize 400 400)
         sample_loaded
  = fitModelToContainer sample_tan sample_center sample_size
      (state_of (updateRendererSize 400 400 sample_loaded)) /\
  (exists s',
     handle sample_tan sample_center sample_size (WindowResize 400 400)
            sample_loaded = Normal tt s' /\
     position (camera s') = eye /\
     lookedAt (camera s') = Some (Vector3.mk 0 0.9 0)).
Proof.
  exact (camera_framing sample_tan sample_center sample_size sample_loaded
           sample_optimized 2 1.8 5.6 (Vector3.mk 0 0.9 0) 400 400
           eq_refl eq_refl eq_refl).
Defined.

(** C4 on the sample page whose bounding box follows the rotation, in the
    middle of a drag that has turned the model by 0.015 about x and 0.02
    about y: the camera is framed for the box of the turned model, of size
    2 x 1.8 x (5.6 + 0.02). *)
Lemma reset_view_click_sample :
  exists s' m',
    handle sample_tan sample_center sample_turning_size ResetViewClick
           sample_rotated = Normal tt s' /\
    model s' = Some m' /\
    rotation m' = Euler.mk 0 0 0 /\
    nodes m' = nodes sample_rotated_model /\
    position (camera s')
    = Vector3.mk 0 (0.3 * 1.8)
        (1.8 * Math_abs
                 (Math_max [2; 1.8; 5.6 + Math_abs (0 + (14 - 10) * 0.005)]
                  / (2 * sample_tan (45 * (Math_PI / 180) / 2)))) /\
    lookedAt (camera s') = Some (Vector3.mk 0 0.9 0) /\
    isDragging s' = true /\
    previousPosition s' = Position.mk 14 23 /\
    isAutoRotating s' = false.
Proof.
  exact (reset_view_click sample_tan sample_center sample_turning_size
           sample_rotated sample_rotated_model
           2 1.8 (5.6 + Math_abs (0 + (14 - 10) * 0.005))
           (Vector3.mk 0 0.9 0) eq_refl eq_refl eq_refl).
Defined.


(** C1 on the sample page: a reset click before the model is loaded throws,
    and reports nothing. *)
Lemma single_failure_path_sample :
  threw (handle sample_tan sample_center sample_size ResetViewClick
           sample_page) = true /\
  console (dispatch sample_tan sample_center sample_size sample_page
             ResetViewClick) = [] /\
  textContent
    (loadingIndicator
       (dispatch sample_tan sample_center sample_size sample_page
          ResetViewClick))
  = "Loading 3D model..."%string.
Proof.
  split; [reflexivity |].
  exact (proj2 (single_failure_path sample_tan sample_center sample_size
                  sample_page) ResetViewClick eq_refl).
Defined.

(** C9 on the sample page: a resize after a failed load. *)
Lemma model_dereference_sample :
  exists reading s',
    handle sample_tan sample_center sample_size (WindowResize 400 400)
      (run sample_tan sample_center sample_size
         [AnimationFrame; GLTFError "404"]
         (new_CybermodelViewer 800 400 "Loading 3D model..."))
    = Throw (TypeError reading) s'.
Proof.
  exact (proj1 (proj2 (proj2
           (model_dereference_unguarded sample_tan sample_center sample_size
              (WindowResize 400 400)
              (run sample_tan sample_center sample_size
                 [AnimationFrame; GLTFError "404"]
                 (new_CybermodelViewer 800 400 "Loading 3D model..."))
              eq_refl)))
           800 400 "Loading 3D model..."%string
           [AnimationFrame; GLTFError "404"] eq_refl eq_refl).
Defined.

(** C6 as stated fails on the sample page: a resize to 400 x 400 completes
    normally and writes the renderer's width and the camera's aspect. *)
Lemma resize_writes_camera_and_renderer :
  let s := sample_loaded in
  let s' := dispatch sample_tan sample_center sample_size s
              (WindowResize 400 400) in
  threw (handle sample_tan sample_center sample_size (WindowResize 400 400) s)
  = false /\
  width (renderer s) = 800 /\ width (renderer s') = 400 /\
  aspect (camera s) = 2 /\ aspect (camera s') = 1 /\
  ~ kept_besides_controls s s'.
Proof.
  repeat split; try reflexivity.
  intros (_ & _ & _ & Hwidth & _).
  apply (f_equal (fun w => PrimFloat.eqb w 800)) in Hwidth.
  vm_compute in Hwidth. discriminate.
Qed.

(** C6 as amended, on the sample page: a mouse move during a drag. *)
Lemma handler_write_sets_sample :
  kept_besides_controls sample_dragging
    (dispatch sample_tan sample_center sample_size sample_dragging
       (MouseMove 14 23)).
Proof.
  exact (proj1 (handler_write_sets sample_tan sample_center sample_size
                  (MouseMove 14 23) sample_dragging) eq_refl).
Defined.

(** C10 as stated fails on the sample page.  From angle 0, a press at x = 0
    and a move to x = 6 give 0 + 0.005 * (6 - 0); the same drag through
    x = 1 gives 0.030000000000000002, the next double; and a drag that
    comes back to x = 0 leaves the model rotated. *)
Lemma drag_depends_on_path :
  let drag := run sample_tan sample_center sample_size in
  let direct := drag [MouseDown 0 0; MouseMove 6 0] sample_loaded in
  let detour :=
    drag [MouseDown 0 0; MouseMove 1 0; MouseMove 6 0] sample_loaded in
  let loop :=
    drag [MouseDown 0 0; MouseMove 1 0; MouseMove 6 0; MouseMove 0 0]
         sample_loaded in
  rotation_y sample_loaded = Some 0 /\
  rotation_y direct = Some (0 + 0.005 * (6 - 0)) /\
  rotation_y detour = Some 0.030000000000000002 /\
  rotation_y detour <> Some (0 + 0.005 * (6 - 0)) /\
  rotation_y loop = Some 3.4694469519536142e-18 /\
  rotation_y loop <> Some (0 + 0.005 * (0 - 0)).
Proof.
  repeat split; try (vm_compute; reflexivity).
  - intros H.
    apply (f_equal (fun o => match o with
                             | Some v => PrimFloat.eqb v (0 + 0.005 * (6 - 0))
                             | None => false
                             end)) in H.
    vm_compute in H. discriminate.
  - intros H.
    apply (f_equal (fun o => match o with
                             | Some v => PrimFloat.eqb v (0 + 0.005 * (0 - 0))
                             | None => false
                             end)) in H.
    vm_compute in H. discriminate.
Qed.

(** C10 as amended, on the same drag through x = 1. *)
Lemma drag_accumulates_sample :
  let events := [MouseMove 1 0; MouseMove 6 0] in
  let s := sample_loaded in
  let drag := run sample_tan sample_center sample_size in
  exists m',
    model (drag (MouseDown 0 0 :: events) s) = Some m' /\
    Euler.y (rotation m')
    = accumulate 0 [(1 - 0) * 0.005; (6 - 1) * 0.005] /\
    Euler.x (rotation m')
    = accumulate 0 [(0 - 0) * 0.005; (0 - 0) * 0.005] /\
    Euler.z (rotation m') = 0 /\
    previousPosition (drag (MouseDown 0 0 :: events) s) = Position.mk 6 0 /\
    isDragging (drag (MouseDown 0 0 :: events) s) = true /\
    (forall p1,
       [Position.mk 1 0; Position.mk 6 0] = [p1] ->
       Euler.y (rotation m') = 0 + 0.005 * (Position.x p1 - 0) /\
       Euler.x (rotation m') = 0 + 0.005 * (Position.y p1 - 0)) /\
    (forall moves1 moves2,
       events = moves1 ++ moves2 ->
       drag (MouseDown 0 0 :: events) s
       = drag moves2 (drag (MouseDown 0 0 :: moves1) s)).
Proof.
  exact (drag_accumulates sample_tan sample_center sample_size
           (MouseDown 0 0) [MouseMove 1 0; MouseMove 6 0]
           (Position.mk 0 0) [Position.mk 1 0; Position.mk 6 0]
           sample_loaded sample_optimized eq_refl eq_refl eq_refl).
Defined.

(** ** The further properties on the sample page *)

(** X1 on the loaded sample page. *)
Lemma optimizeModel_effect_sample :
  exists s' m',
    optimizeModel sample_loaded = Normal tt s' /\
    model s' = Some m' /\
    rotation m' = rotation sample_optimized /\
    List.length (nodes m') = List.length (nodes sample_optimized) /\
    (forall i n,
       nth_error (nodes sample_optimized) i = Some n ->
       exists n',
         nth_error (nodes m') i = Some n' /\
         isMesh n' = isMesh n /\
         (isMesh n = true -> material n <> None ->
          material n' = Some (mkMaterial 0.9 0.3) /\
          castShadow n' = true /\ receiveShadow n' = true) /\
         (isMesh n = false \/ material n = None -> n' = n)) /\
    optimizeModel s' = Normal tt s'.
Proof.
  exact (optimizeModel_effect sample_loaded sample_optimized eq_refl).
Defined.


(** X6 from construction: a frame, a load completion and a click. *)
Lemma scene_only_grows_sample :
  scene (run sample_tan sample_center sample_size
           [AnimationFrame; GLTFLoaded sample_model; ResetViewClick]
           (new_CybermodelViewer 800 400 "Loading 3D model..."))
  = the_lights ++ [SceneModel].
Proof.
  exact (proj2 (scene_only_grows sample_tan sample_center sample_size
                  [AnimationFrame; GLTFLoaded sample_model; ResetViewClick]
                  (new_CybermodelViewer 800 400 "Loading 3D model..."))
           800 400 "Loading 3D model..."%string eq_refl).
Defined.

(** X8 on the sample page: a release during the drag, then two moves. *)
Lemma release_ends_drag_sample :
  run sample_tan sample_center sample_size
      [MouseUp; MouseMove 14 23; TouchMove [Touch.mk 1 1]] sample_dragging
  = set_isDragging false sample_dragging.
Proof.
  exact (release_ends_drag sample_tan sample_center sample_size MouseUp
           [MouseMove 14 23; TouchMove [Touch.mk 1 1]] sample_dragging
           eq_refl eq_refl).
Defined.


(** X11 on the sample page before the load. *)
Lemma resize_before_load_sample :
  exists s',
    handle sample_tan sample_center sample_size (WindowResize 400 200)
           sample_page
    = Throw (TypeError "updateWorldMatrix") s' /\
    width (renderer s') = 400 /\
    height (renderer s') = 200 /\
    aspect (camera s') = 400 / 200 /\
    position (camera s') = Vector3.mk 0 0 0 /\
    lookedAt (camera s') = None /\
    kept_by_resize sample_page s'.
Proof.
  exact (resize_before_load sample_tan sample_center sample_size 400 200
           sample_page eq_refl).
Defined.


(** X14 on the sizes of the sample box. *)
Lemma Math_max_greatest_sample :
  (forall v, In v [2; 1.8; 5.6] -> (v <=? Math_max [2; 1.8; 5.6]) = true) /\
  ([2; 1.8; 5.6] <> [] -> In (Math_max [2; 1.8; 5.6]) [2; 1.8; 5.6]) /\
  ([2; 1.8; 5.6] = [] -> Math_max [2; 1.8; 5.6] = neg_infinity).
Proof.
  exact (proj2 (Math_max_greatest [2; 1.8; 5.6]) eq_refl).
Defined.

(** X16 on the sample document. *)
Lemma construction_outcome_sample :
  exists p, construct sample_dom = Constructed p.
Proof.
  apply (proj2 (proj1 (construction_outcome sample_dom))).
  repeat split. do 2 eexists. split; reflexivity.
Defined.



(** X19 on the constructed sample page. *)
Lemma destroy_twice_sample :
  canvasInContainer (page_of (destroy sample_constructed)) = false /\
  destroy (page_of (destroy sample_constructed))
  = NotFoundError (page_of (destroy sample_constructed)).
Proof.
  exact (proj2 (destroy_twice sample_constructed)
           (page_of (destroy sample_constructed)) eq_refl).
Defined.
